(** * The web scraping tool of [search_tool/Agent/scraping_tool.py]

    A shallow embedding of [WebScrapingTool]: the browser (Chromium) path,
    the HTTP (aiohttp) path and the orchestration [_process_scraping] with
    its fallback, truncation and error handling.

    Python values are modelled as follows.
    - [str] is a list of Unicode code points, so that [len] and slicing
      count characters as Python does.
    - [int] is [Z]; [content[:n]] follows Python's slice rule, negative
      stops included.
    - An exception is a value of [exn]; only instances of Python's
      [Exception] class are modelled, which is what the collaborators of
      this file raise and what [except Exception] catches. The text of an
      exception built by a library is carried by the exception as the
      library prints it.
    - The collaborators (browser loader, document transformer, HTTP
      session, HTML parser, clock) are the fields of a [World], and so is
      the state of asyncio in the calling thread; every call to a
      collaborator and every log record is appended to a trace. *)

From Stdlib Require Import ZArith NArith Lia String Ascii DecimalString.
From stdpp Require Import base decidable option list numbers.

Open Scope Z_scope.

(** ** Python strings *)

Definition char := N.
Definition str := list char.

(** An ASCII literal of the source, as code points. *)
Definition lit (s : string) : str :=
  (fun a => N_of_ascii a) <$> list_ascii_of_string s.

Definition nl : char := 10%N.

Definition len {A} (s : list A) : Z := Z.of_nat (length s).

(** [s[:stop]]: a negative stop counts from the end, and the bounds are
    clamped to the string. *)
Definition slice_to {A} (s : list A) (stop : Z) : list A :=
  take (Z.to_nat (if stop <? 0 then len s + stop else stop)) s.

(** [str(n)] for a non-negative [int] such as a length. *)
Definition str_of_nat (n : nat) : str :=
  lit (NilZero.string_of_uint (Nat.to_uint n)).

(** [sep.join(parts)] *)
Fixpoint join (sep : str) (parts : list str) : str :=
  match parts with
  | [] => []
  | [p] => p
  | p :: ps => p ++ sep ++ join sep ps
  end.

(** [c.isspace()] for a code point: the characters [str.strip()] removes. *)
Definition isspace (c : char) : bool :=
  ((9 <=? c) && (c <=? 13) || (28 <=? c) && (c <=? 32)
   || (c =? 133) || (c =? 160) || (c =? 5760)
   || (8192 <=? c) && (c <=? 8202)
   || (c =? 8232) || (c =? 8233) || (c =? 8239) || (c =? 8287)
   || (c =? 12288))%N.

Fixpoint lstrip (s : str) : str :=
  match s with
  | c :: s' => if isspace c then lstrip s' else s
  | [] => []
  end.

Definition strip (s : str) : str := rev (lstrip (rev (lstrip s))).

(** ** Exceptions and outcomes *)

Inductive exn :=
| Exception (msg : str)
| ValueError (msg : str)
| RuntimeError (msg : str)
| ClientResponseError (status : Z) (message : str) (shown : str)
| CollaboratorError (cls : str) (msg : str).

(** [str(e)]. For a [ClientResponseError] it is the text aiohttp prints
    (the status, then the reason and the real URL through [repr]), which
    the exception carries as [shown]. *)
Definition str_exn (e : exn) : str :=
  match e with
  | Exception msg => msg
  | ValueError msg => msg
  | RuntimeError msg => msg
  | ClientResponseError _ _ shown => shown
  | CollaboratorError _ msg => msg
  end.

Inductive outcome (A : Type) :=
| Returned (a : A)
| Raised (e : exn).
Arguments Returned {A} a.
Arguments Raised {A} e.

(** ** Collaborators *)

Record Document := { page_content : str; source : str }.

Record Response := {
  status : Z;
  reason : str;
  (** [str()] of the [ClientResponseError] that [raise_for_status()]
      builds for this response *)
  status_error : str;
  text : outcome str  (* awaiting [response.text()] *)
}.

(** A parsed document as the HTML parsing library exposes it. *)
#[warnings="-register-all"]
Inductive node :=
| Tag (name : str) (contents : list node)
| NavigableString (s : str)
| Comment (s : str).

Definition datetime := Z.

Inductive level := INFO | WARNING.

Inductive event :=
| Logged (lv : level) (msg : str)
| ChromiumLoad (urls : list str)
| TransformDocuments (docs : list Document) (tags : list str)
| HttpGet (url : str) (timeout : Z) (headers : list (str * str)).

Definition trace := list event.

Record World := {
  (** [AsyncChromiumLoader(urls).load()] *)
  chromium_load : list str -> outcome (list Document);
  (** [BeautifulSoupTransformer().transform_documents(docs, tags_to_extract=tags)] *)
  transform_documents : list Document -> list str -> outcome (list Document);
  (** [session.get(url)] of a session with the given total timeout and headers *)
  session_get : str -> Z -> list (str * str) -> outcome Response;
  (** [BeautifulSoup(html, 'html.parser')]: the contents of the document root *)
  html_parser : str -> list node;
  (** [datetime.now()] once the given events have happened *)
  clock : trace -> datetime;
  (** [f"{(end - start).total_seconds():.2f}"] *)
  seconds_2f : datetime -> datetime -> str;
  (** whether an event loop is running in the thread that calls the tool *)
  loop_running : bool
}.

(** ** The monad of a call: a trace and a possible exception *)

Definition M (A : Type) : Type := trace -> outcome A * trace.

Definition ret {A} (a : A) : M A := fun tr => (Returned a, tr).

Definition bind {A B} (c : M A) (k : A -> M B) : M B :=
  fun tr =>
    match c tr with
    | (Returned a, tr') => k a tr'
    | (Raised e, tr') => (Raised e, tr')
    end.

Definition raise {A} (e : exn) : M A := fun tr => (Raised e, tr).

(** [try: c  except Exception as e: h e] *)
Definition try_except {A} (c : M A) (h : exn -> M A) : M A :=
  fun tr =>
    match c tr with
    | (Returned a, tr') => (Returned a, tr')
    | (Raised e, tr') => h e tr'
    end.

Definition emit (ev : event) : M unit := fun tr => (Returned tt, tr ++ [ev]).

Definition lift {A} (o : outcome A) : M A := fun tr => (o, tr).

(** A call to a collaborator: recorded, then its outcome. *)
Definition call {A} (ev : event) (o : outcome A) : M A :=
  bind (emit ev) (fun _ => lift o).

Notation "'let!' x ':=' c 'in' k" := (bind c (fun x => k))
  (at level 10, x name, c at level 100, k at level 200).
Notation "c '>>' k" := (bind c (fun _ => k))
  (at level 100, k at level 200, right associativity).

Definition logger_info (msg : str) : M unit := emit (Logged INFO msg).
Definition logger_warning (msg : str) : M unit := emit (Logged WARNING msg).

(** ** The tool *)

Definition get_default_tags : list str :=
  lit <$> ["p"; "li"; "div"; "a"; "span"; "h1"; "h2"; "h3"; "h4"; "h5"; "h6";
           "pre"; "code"; "table"]%string.

Record WebScrapingTool := {
  max_content_length : Z;
  timeout : Z;
  user_agent : str
}.

(** [WebScrapingTool.__init__] *)
Definition init (max_content_length timeout : Z) : WebScrapingTool :=
  {| max_content_length := max_content_length;
     timeout := timeout;
     user_agent := lit "Mozilla/5.0 (Windows NT 10.0; Win64; x64) AppleWebKit/537.36 (KHTML, like Gecko) Chrome/91.0.4472.124 Safari/537.36" |}.

Definition default_tool : WebScrapingTool := init 20000 20.

(** *** The parsed document: removal of elements and text extraction *)

Definition removed_tags : list str :=
  lit <$> ["script"; "style"; "nav"; "footer"; "header"]%string.

Definition named (names : list str) (n : node) : bool :=
  match n with
  | Tag nm _ => bool_decide (nm ∈ names)
  | _ => false
  end.

(** [for tag in soup(names): tag.decompose()]: every element whose name is
    listed leaves the tree together with what it contains. *)
Fixpoint decompose_in (names : list str) (n : node) : node :=
  match n with
  | Tag nm cs =>
      Tag nm ((fix go (l : list node) : list node :=
                 match l with
                 | [] => []
                 | c :: l' =>
                     if named names c then go l'
                     else decompose_in names c :: go l'
                 end) cs)
  | _ => n
  end.

Fixpoint decompose_all (names : list str) (soup : list node) : list node :=
  match soup with
  | [] => []
  | c :: l' =>
      if named names c then decompose_all names l'
      else decompose_in names c :: decompose_all names l'
  end.

(** The strings of the document in document order; comments are not text. *)
Fixpoint strings_of (n : node) : list str :=
  match n with
  | Tag _ cs =>
      (fix go (l : list node) : list str :=
         match l with
         | [] => []
         | c :: l' => strings_of c ++ go l'
         end) cs
  | NavigableString s => [s]
  | Comment _ => []
  end.

Definition all_strings (soup : list node) : list str :=
  concat (strings_of <$> soup).

(** [soup.get_text(separator=sep, strip=True)]: each string is stripped,
    the empty ones are skipped, the rest joined. *)
Definition get_text (sep : str) (soup : list node) : str :=
  join sep (filter (fun s => s <> []) (strip <$> all_strings soup)).

(** [response.raise_for_status()]: status codes from 400 on raise. *)
Definition raise_for_status (r : Response) : M unit :=
  if 400 <=? status r
  then raise (ClientResponseError (status r) (reason r) (status_error r))
  else ret tt.

Section Tool.

Variable w : World.
Variable self : WebScrapingTool.

Definition _scrape_with_chromium (url : str) (tags_to_extract : list str) : M str :=
  logger_info ([127760%N] ++ lit " Attempting Chromium scrape for: " ++ url) >>
  let! html_docs := call (ChromiumLoad [url]) (chromium_load w [url]) in
  match html_docs with
  | [] => raise (Exception (lit "Chromium loader failed to get any documents."))
  | _ :: _ =>
      let! docs_transformed :=
        call (TransformDocuments html_docs tags_to_extract)
             (transform_documents w html_docs tags_to_extract) in
      match docs_transformed with
      | [] => raise (Exception (lit "BeautifulSoupTransformer failed to extract content."))
      | d :: _ => ret (page_content d)
      end
  end.

Definition _scrape_with_aiohttp (url : str) (tags_to_extract : list str) : M str :=
  logger_info ([128260%N] ++ lit " Attempting aiohttp scrape for: " ++ url) >>
  let headers := [(lit "User-Agent", user_agent self)] in
  let! response :=
    call (HttpGet url (timeout self) headers)
         (session_get w url (timeout self) headers) in
  raise_for_status response >>
  let! html_content := lift (text response) in
  let soup := html_parser w html_content in
  let soup := decompose_all removed_tags soup in
  ret (get_text [nl] soup).

(** The three texts [_process_scraping] can return. *)

Definition no_content_message (url used_method : str) : str :=
  [10060%N] ++ lit " No content extracted from " ++ url
    ++ lit " using method " ++ used_method ++ lit ".".

Definition error_message (url : str) (e : exn) : str :=
  [10060%N] ++ lit " Web scraping error for " ++ url ++ lit ": " ++ str_exn e.

Definition report (url used_method duration content : str) : str :=
  [nl] ++ lit "**Website Scraped:** " ++ url ++ [nl]
    ++ lit "**Method Used:** " ++ used_method ++ [nl]
    ++ lit "**Duration:** " ++ duration ++ lit " seconds" ++ [nl]
    ++ lit "**Content Length:** " ++ str_of_nat (length content)
    ++ lit " characters" ++ [nl]
    ++ lit "**Content Extracted:**" ++ [nl]
    ++ content ++ [nl].

Definition truncation_marker : str := [nl; nl] ++ lit "... (content truncated)".

(** Lines 127-128: the content that goes into the report. *)
Definition truncate (content : str) : str :=
  if len content >? max_content_length self
  then slice_to content (max_content_length self) ++ truncation_marker
  else content.

Definition datetime_now : M datetime := fun tr => (Returned (clock w tr), tr).

(** The branch on [method] (lines 105-124): the content and [used_method]. *)
Definition select_and_scrape (url : str) (tags_to_extract : list str)
    (method : str) : M (str * str) :=
  if decide (method = lit "auto") then
    try_except
      (let! content := _scrape_with_chromium url tags_to_extract in
       logger_info ([9989%N] ++ lit " Chromium scraping successful.") >>
       ret (content, lit "chromium"))
      (fun e =>
         logger_warning ([9888%N; 65039%N] ++ lit " Chromium scraping failed ("
                           ++ str_exn e ++ lit "), falling back to aiohttp.") >>
         let! content := _scrape_with_aiohttp url tags_to_extract in
         logger_info ([9989%N] ++ lit " aiohttp fallback successful.") >>
         ret (content, lit "aiohttp"))
  else if decide (method = lit "chromium") then
    let! content := _scrape_with_chromium url tags_to_extract in
    ret (content, lit "chromium")
  else if decide (method = lit "aiohttp") then
    let! content := _scrape_with_aiohttp url tags_to_extract in
    ret (content, lit "aiohttp")
  else raise (ValueError (lit "Unknown method: " ++ method)).

Definition _process_scraping (url : str) (tags_to_extract : option (list str))
    (method : str) : M str :=
  let tags_to_extract := default get_default_tags tags_to_extract in
  let! start_time := datetime_now in
  try_except
    (let! cu := select_and_scrape url tags_to_extract method in
     let '(content, used_method) := cu in
     match content with
     | [] => ret (no_content_message url used_method)
     | _ :: _ =>
         let content := truncate content in
         let! end_time := datetime_now in
         let duration := seconds_2f w start_time end_time in
         ret (report url used_method duration content)
     end)
    (fun e => ret (error_message url e)).

(** [asyncio.run(coro)]: it refuses to start when an event loop is already
    running in the calling thread, and the coroutine is then never run;
    otherwise it runs the coroutine to its end. *)
Definition asyncio_run {A} (coro : M A) : M A :=
  if loop_running w
  then raise (RuntimeError
                (lit "asyncio.run() cannot be called from a running event loop"))
  else coro.

(** The public entry points. *)
Definition _run (url : str) (tags_to_extract : option (list str))
    (method : str) : M str :=
  asyncio_run (_process_scraping url tags_to_extract method).

Definition _arun (url : str) (tags_to_extract : option (list str))
    (method : str) : M str :=
  _process_scraping url tags_to_extract method.

End Tool.

(** ** Vocabulary of the statements *)

Inductive path := Chromium | Aiohttp.

Definition method_name (p : path) : str :=
  match p with
  | Chromium => lit "chromium"
  | Aiohttp => lit "aiohttp"
  end.

Definition is_http_get (ev : event) : bool :=
  match ev with
  | HttpGet _ _ _ => true
  | _ => false
  end.

(** The HTTP requests of a trace, in order. *)
Definition http_calls (tr : trace) : trace := List.filter is_http_get tr.

(** What a path does when it is run in a world: its outcome and the events
    it adds. Neither depends on what happened before (see [chromium_run]
    and [aiohttp_run]). *)
Definition chromium_outcome (w : World) (url : str) (tags : list str) :=
  fst (_scrape_with_chromium w url tags []).
Definition chromium_events (w : World) (url : str) (tags : list str) :=
  snd (_scrape_with_chromium w url tags []).
Definition aiohttp_outcome (w : World) (self : WebScrapingTool) (url : str)
    (tags : list str) :=
  fst (_scrape_with_aiohttp w self url tags []).
Definition aiohttp_events (w : World) (self : WebScrapingTool) (url : str)
    (tags : list str) :=
  snd (_scrape_with_aiohttp w self url tags []).

(** The operation as the specification words it: which path produces the
    text of a call, per mode. *)
Inductive spec_produced (w : World) (self : WebScrapingTool) (url : str)
    (tags : list str) (method : str) : path -> str -> Prop :=
| produced_browser_only t :
    method = lit "chromium" ->
    chromium_outcome w url tags = Returned t ->
    spec_produced w self url tags method Chromium t
| produced_http_only t :
    method = lit "aiohttp" ->
    aiohttp_outcome w self url tags = Returned t ->
    spec_produced w self url tags method Aiohttp t
| produced_auto_browser t :
    method = lit "auto" ->
    chromium_outcome w url tags = Returned t ->
    spec_produced w self url tags method Chromium t
| produced_auto_fallback e t :
    method = lit "auto" ->
    chromium_outcome w url tags = Raised e ->
    aiohttp_outcome w self url tags = Returned t ->
    spec_produced w self url tags method Aiohttp t.

(** A computation is uniform when its outcome and the events it adds do
    not depend on the trace it starts from. *)
Definition uniform {A} (c : M A) : Prop :=
  forall tr, c tr = (fst (c []), tr ++ snd (c [])).

(** No element of the tree carries one of the names. *)
Fixpoint free_of (names : list str) (n : node) : bool :=
  match n with
  | Tag nm cs => negb (bool_decide (nm ∈ names)) && forallb (free_of names) cs
  | _ => true
  end.

(** The browser loads and the transformer calls of a trace, in order. *)
Definition is_chromium_load (ev : event) : bool :=
  match ev with
  | ChromiumLoad _ => true
  | _ => false
  end.

Definition browser_loads (tr : trace) : trace := List.filter is_chromium_load tr.

Definition is_transform (ev : event) : bool :=
  match ev with
  | TransformDocuments _ _ => true
  | _ => false
  end.

Definition transform_calls (tr : trace) : trace := List.filter is_transform tr.

(** Two returned texts that are equal, or are reports that differ in the
    duration field only. *)
Definition same_up_to_duration (r1 r2 : outcome str) : Prop :=
  r1 = r2
  \/ exists url m d1 d2 c,
      r1 = Returned (report url m d1 c) /\ r2 = Returned (report url m d2 c).


(** *** The visible text as the specification words it

    The non-content elements are the script, style, navigation, footer
    and header tags; the visible text is made of the text runs outside
    them, each without the white space around it, the runs that are left
    empty dropped, one run per line. *)











(** ** Test worlds *)

(** A reader for plain markup (elements without attributes, and text),
    which stands for the HTML parser in the test worlds. *)
Module Markup.

Inductive token :=
| Open (name : str)
| Close (name : str)
| Chars (s : str).

Definition flush (acc : str) (rest : list token) : list token :=
  match acc with
  | [] => rest
  | _ => Chars (rev acc) :: rest
  end.

Definition tag_token (acc : str) : token :=
  match rev acc with
  | 47%N :: name => Close name
  | name => Open name
  end.

(** [acc] holds, reversed, the characters read since the last delimiter. *)
Fixpoint tokenize (in_tag : bool) (acc : str) (s : str) : list token :=
  match s with
  | [] => if in_tag then [] else flush acc []
  | c :: s' =>
      if in_tag then
        if (c =? 62)%N then tag_token acc :: tokenize false [] s'
        else tokenize true (c :: acc) s'
      else
        if (c =? 60)%N then flush acc (tokenize true [] s')
        else tokenize false (c :: acc) s'
  end.

(** [cur] holds, reversed, the nodes read inside the innermost open
    element; [stack] the open elements with the nodes read before them. *)
Fixpoint build (stack : list (str * list node)) (cur : list node)
    (toks : list token) : list node :=
  match toks with
  | [] =>
      rev (fold_left (fun inner '(nm, before) => Tag nm (rev inner) :: before)
                     stack cur)
  | Open nm :: toks' => build ((nm, cur) :: stack) [] toks'
  | Close _ :: toks' =>
      match stack with
      | (nm, before) :: stack' => build stack' (Tag nm (rev cur) :: before) toks'
      | [] => build [] cur toks'
      end
  | Chars s :: toks' => build stack (NavigableString s :: cur) toks'
  end.

Definition read (html : str) : list node := build [] [] (tokenize false [] html).

End Markup.

(** A world with a fixed browser result, transformer and HTTP result. The
    clock ticks once per event; durations print in whole seconds. *)
Definition mock (browser : outcome (list Document))
    (transformer : list Document -> list str -> outcome (list Document))
    (http : outcome Response) : World :=
  {| chromium_load := fun _ => browser;
     transform_documents := transformer;
     session_get := fun _ _ _ => http;
     html_parser := Markup.read;
     clock := fun tr => len tr;
     seconds_2f := fun t0 t1 => str_of_nat (Z.to_nat (t1 - t0)) ++ lit ".00";
     loop_running := false |}.

Definition ok_response (body : str) : Response :=
  {| status := 200; reason := lit "OK";
     status_error := lit "200, message='OK', url='http://example.test/page'";
     text := Returned body |}.

Definition not_found : Response :=
  {| status := 404; reason := lit "Not Found";
     status_error :=
       lit "404, message='Not Found', url='http://example.test/page'";
     text := Returned (lit "<html><body><p>missing</p></body></html>") |}.

Definition browser_down : outcome (list Document) :=
  Raised (CollaboratorError (lit "Error") (lit "Browser closed unexpectedly")).

Definition keep_documents (docs : list Document) (tags : list str)
  : outcome (list Document) := Returned docs.

Definition example_url : str := lit "http://example.test/page".

Definition hello_page : str :=
  lit "<html><body><script>x</script><p>Hello</p></body></html>".

Definition hello_tree : list node :=
  [Tag (lit "html")
     [Tag (lit "body")
        [Tag (lit "script") [NavigableString (lit "x")];
         Tag (lit "p") [NavigableString (lit "Hello")]]]].

(** A transformer for the test worlds: it keeps, from each document, the
    text of the elements whose name is listed. *)
Fixpoint listed_text (tags : list str) (n : node) : list str :=
  match n with
  | Tag nm cs =>
      if bool_decide (nm ∈ tags) then strings_of n
      else (fix go (l : list node) : list str :=
              match l with
              | [] => []
              | c :: l' => listed_text tags c ++ go l'
              end) cs
  | _ => []
  end.

Definition keep_listed (docs : list Document) (tags : list str)
  : outcome (list Document) :=
  Returned
    ((fun d =>
        {| page_content :=
             join [32%N] (concat (listed_text tags <$> Markup.read (page_content d)));
           source := source d |}) <$> docs).

Definition rendered (html : str) : outcome (list Document) :=
  Returned [{| page_content := html; source := example_url |}].

(** * Properties *)

(** ** Scenarios of the specification *)

Example read_hello_page : Markup.read hello_page = hello_tree.
Proof. vm_compute. reflexivity. Qed.

Example read_nested_markup :
  Markup.read (lit "<ul><li>a</li><li>b</li></ul>tail")
  = [Tag (lit "ul") [Tag (lit "li") [NavigableString (lit "a")];
                     Tag (lit "li") [NavigableString (lit "b")]];
     NavigableString (lit "tail")].
Proof. vm_compute. reflexivity. Qed.

Example chrome_is_removed :
  get_text [nl]
    (decompose_all removed_tags
       (Markup.read
          (lit "<html><body><header>Top</header><nav>Menu</nav><style>s</style><p> Hello </p><div><p>World</p><script>x</script></div><footer>End</footer></body></html>")))
  = lit "Hello" ++ [nl] ++ lit "World".
Proof. vm_compute. reflexivity. Qed.

Example slice_negative_stop : slice_to (lit "abc") (-1) = lit "ab".
Proof. reflexivity. Qed.

Example slice_beyond_end : slice_to (lit "abc") 7 = lit "abc".
Proof. reflexivity. Qed.

Example fallback_scenario :
  fst (_process_scraping (mock browser_down keep_documents
                               (Returned (ok_response (lit "<div>ok</div>"))))
         default_tool example_url None (lit "auto") [])
  = Returned (report example_url (lit "aiohttp") (lit "6.00") (lit "ok")).
Proof. vm_compute. reflexivity. Qed.

Example not_found_scenario :
  fst (_process_scraping (mock browser_down keep_documents (Returned not_found))
         default_tool example_url None (lit "aiohttp") [])
  = Returned
      ([10060%N]
         ++ lit " Web scraping error for http://example.test/page: 404, message='Not Found', url='http://example.test/page'").
Proof. vm_compute. reflexivity. Qed.

(** ** The monad *)

Lemma uniform_ret {A} (a : A) : uniform (ret a).
Proof. intros tr. unfold ret. simpl. by rewrite app_nil_r. Qed.

Lemma uniform_raise {A} (e : exn) : uniform (@raise A e).
Proof. intros tr. unfold raise. simpl. by rewrite app_nil_r. Qed.

Lemma uniform_lift {A} (o : outcome A) : uniform (lift o).
Proof. intros tr. unfold lift. simpl. by rewrite app_nil_r. Qed.

Lemma uniform_emit ev : uniform (emit ev).
Proof. intros tr. reflexivity. Qed.

Lemma uniform_bind {A B} (c : M A) (k : A -> M B) :
  uniform c -> (forall a, uniform (k a)) -> uniform (bind c k).
Proof.
  intros Hc Hk tr. unfold bind. rewrite (Hc tr).
  destruct (c []) as [[a|e] tr1]; simpl; [|done].
  rewrite (Hk a (tr ++ tr1)), (Hk a tr1). simpl. by rewrite app_assoc.
Qed.

Lemma uniform_try_except {A} (c : M A) (h : exn -> M A) :
  uniform c -> (forall e, uniform (h e)) -> uniform (try_except c h).
Proof.
  intros Hc Hh tr. unfold try_except. rewrite (Hc tr).
  destruct (c []) as [[a|e] tr1]; simpl; [done|].
  rewrite (Hh e (tr ++ tr1)), (Hh e tr1). simpl. by rewrite app_assoc.
Qed.

Lemma uniform_call {A} ev (o : outcome A) : uniform (call ev o).
Proof. apply uniform_bind; [apply uniform_emit | intros; apply uniform_lift]. Qed.

Lemma uniform_raise_for_status r : uniform (raise_for_status r).
Proof.
  unfold raise_for_status. destruct (400 <=? status r);
    [apply uniform_raise | apply uniform_ret].
Qed.

Create HintDb uniform.
#[export] Hint Resolve uniform_ret uniform_raise uniform_lift uniform_emit
  uniform_call uniform_raise_for_status : uniform.

Ltac uniformity :=
  repeat first
    [ progress eauto with uniform
    | apply uniform_bind; [| intros ? ]
    | apply uniform_try_except; [| intros ? ]
    | match goal with |- uniform (match ?x with _ => _ end) => destruct x end
    | match goal with |- uniform (if ?x then _ else _) => destruct x end ].

(** ** The two paths *)

Lemma uniform_chromium w url tags : uniform (_scrape_with_chromium w url tags).
Proof. unfold _scrape_with_chromium, logger_info. uniformity. Qed.

Lemma uniform_aiohttp w self url tags :
  uniform (_scrape_with_aiohttp w self url tags).
Proof. unfold _scrape_with_aiohttp, logger_info. uniformity. Qed.

Lemma chromium_run w url tags tr :
  _scrape_with_chromium w url tags tr
  = (chromium_outcome w url tags, tr ++ chromium_events w url tags).
Proof. apply uniform_chromium. Qed.

Lemma aiohttp_run w self url tags tr :
  _scrape_with_aiohttp w self url tags tr
  = (aiohttp_outcome w self url tags, tr ++ aiohttp_events w self url tags).
Proof. apply uniform_aiohttp. Qed.

(** The browser path sends no HTTP request of its own. *)
Lemma chromium_no_http w url tags : http_calls (chromium_events w url tags) = [].
Proof.
  unfold chromium_events, _scrape_with_chromium, logger_info, call, bind, emit,
    lift, raise, ret.
  simpl. destruct (chromium_load w [url]) as [[|d ds]|e]; simpl; try done.
  destruct (transform_documents w (d :: ds) tags) as [[|d' ds']|e]; done.
Qed.

(** The HTTP path sends exactly one request. *)
Lemma aiohttp_one_request w self url tags :
  http_calls (aiohttp_events w self url tags)
  = [HttpGet url (timeout self) [(lit "User-Agent", user_agent self)]].
Proof.
  unfold aiohttp_events, _scrape_with_aiohttp, logger_info, call, bind, emit,
    lift, raise_for_status, raise, ret.
  simpl. destruct (session_get w url _ _) as [r|e]; simpl; try done.
  destruct (400 <=? status r); simpl; try done.
  destruct (text r); done.
Qed.

(** ** The branch on the mode *)

Section Select.

Context (w : World) (self : WebScrapingTool) (url : str) (tags : list str).

Lemma uniform_select method : uniform (select_and_scrape w self url tags method).
Proof.
  unfold select_and_scrape, logger_info, logger_warning.
  pose proof (uniform_chromium w url tags).
  pose proof (uniform_aiohttp w self url tags).
  uniformity.
Qed.

Lemma select_browser_only tr :
  select_and_scrape w self url tags (lit "chromium") tr
  = (match chromium_outcome w url tags with
     | Returned t => Returned (t, lit "chromium")
     | Raised e => Raised e
     end, tr ++ chromium_events w url tags).
Proof.
  unfold select_and_scrape. rewrite decide_False by discriminate.
  rewrite decide_True by done. unfold bind. rewrite chromium_run.
  by destruct (chromium_outcome w url tags).
Qed.

Lemma select_http_only tr :
  select_and_scrape w self url tags (lit "aiohttp") tr
  = (match aiohttp_outcome w self url tags with
     | Returned t => Returned (t, lit "aiohttp")
     | Raised e => Raised e
     end, tr ++ aiohttp_events w self url tags).
Proof.
  unfold select_and_scrape. rewrite !decide_False by discriminate.
  rewrite decide_True by done. unfold bind. rewrite aiohttp_run.
  by destruct (aiohttp_outcome w self url tags).
Qed.

Lemma select_auto_browser tr t :
  chromium_outcome w url tags = Returned t ->
  select_and_scrape w self url tags (lit "auto") tr
  = (Returned (t, lit "chromium"),
     tr ++ chromium_events w url tags
        ++ [Logged INFO ([9989%N] ++ lit " Chromium scraping successful.")]).
Proof.
  intros Hc. unfold select_and_scrape. rewrite decide_True by done.
  unfold try_except, bind. rewrite chromium_run, Hc.
  unfold logger_info, emit, ret. by rewrite app_assoc.
Qed.

Lemma select_auto_fallback tr e :
  chromium_outcome w url tags = Raised e ->
  select_and_scrape w self url tags (lit "auto") tr
  = (match aiohttp_outcome w self url tags with
     | Returned t => Returned (t, lit "aiohttp")
     | Raised e' => Raised e'
     end,
     tr ++ chromium_events w url tags
        ++ [Logged WARNING ([9888%N; 65039%N] ++ lit " Chromium scraping failed ("
                              ++ str_exn e ++ lit "), falling back to aiohttp.")]
        ++ aiohttp_events w self url tags
        ++ match aiohttp_outcome w self url tags with
           | Returned _ =>
               [Logged INFO ([9989%N] ++ lit " aiohttp fallback successful.")]
           | Raised _ => []
           end).
Proof.
  intros Hc. unfold select_and_scrape. rewrite decide_True by done.
  unfold try_except, bind. rewrite chromium_run, Hc.
  unfold logger_warning, logger_info, emit, ret. rewrite aiohttp_run.
  destruct (aiohttp_outcome w self url tags); simpl;
    rewrite ?app_nil_r, <- ?app_assoc; reflexivity.
Qed.

Lemma select_unknown tr method :
  method <> lit "auto" -> method <> lit "chromium" -> method <> lit "aiohttp" ->
  select_and_scrape w self url tags method tr
  = (Raised (ValueError (lit "Unknown method: " ++ method)), tr).
Proof.
  intros H1 H2 H3. unfold select_and_scrape.
  by rewrite !decide_False by done.
Qed.

(** The code selects the path the specification names, and no other. *)
Lemma select_sound method tr t m :
  fst (select_and_scrape w self url tags method tr) = Returned (t, m) ->
  exists p, m = method_name p /\ spec_produced w self url tags method p t.
Proof.
  destruct (decide (method = lit "auto")) as [->|Hauto].
  { destruct (chromium_outcome w url tags) as [t'|e] eqn:Hc.
    - rewrite (select_auto_browser _ _ Hc). simpl. intros [= <- <-].
      exists Chromium. split; [done|]. by apply produced_auto_browser.
    - rewrite (select_auto_fallback _ _ Hc). simpl.
      destruct (aiohttp_outcome w self url tags) as [t'|e'] eqn:Ha; [|done].
      intros [= <- <-]. exists Aiohttp. split; [done|].
      by eapply produced_auto_fallback. }
  destruct (decide (method = lit "chromium")) as [->|Hchromium].
  { rewrite select_browser_only. simpl.
    destruct (chromium_outcome w url tags) as [t'|e] eqn:Hc; [|done].
    intros [= <- <-]. exists Chromium. split; [done|].
    by apply produced_browser_only. }
  destruct (decide (method = lit "aiohttp")) as [->|Haiohttp].
  { rewrite select_http_only. simpl.
    destruct (aiohttp_outcome w self url tags) as [t'|e] eqn:Ha; [|done].
    intros [= <- <-]. exists Aiohttp. split; [done|].
    by apply produced_http_only. }
  by rewrite select_unknown.
Qed.

Lemma select_complete method tr p t :
  spec_produced w self url tags method p t ->
  fst (select_and_scrape w self url tags method tr) = Returned (t, method_name p).
Proof.
  intros [t' -> Hc | t' -> Ha | t' -> Hc | e t' -> Hc Ha].
  - rewrite select_browser_only. simpl. by rewrite Hc.
  - rewrite select_http_only. simpl. by rewrite Ha.
  - by rewrite (select_auto_browser _ _ Hc).
  - rewrite (select_auto_fallback _ _ Hc). simpl. by rewrite Ha.
Qed.

Lemma method_name_inj p q : method_name p = method_name q -> p = q.
Proof. destruct p, q; simpl; first [reflexivity | discriminate]. Qed.

(** The branch on the mode refines the operation of the specification. *)
Lemma select_refines_spec method tr p t :
  fst (select_and_scrape w self url tags method tr) = Returned (t, method_name p)
  <-> spec_produced w self url tags method p t.
Proof.
  split; [|apply select_complete].
  intros Hsel. apply select_sound in Hsel as (q & Hq & Hprod).
  by apply method_name_inj in Hq as ->.
Qed.

End Select.

(** ** The orchestration *)

(** [_process_scraping] read off the outcome of the branch on the mode. *)
Lemma process_run w self url tags method tr :
  _process_scraping w self url tags method tr
  = match select_and_scrape w self url (default get_default_tags tags) method tr with
    | (Returned ([], m), tr') => (Returned (no_content_message url m), tr')
    | (Returned (t, m), tr') =>
        (Returned (report url m (seconds_2f w (clock w tr) (clock w tr'))
                     (truncate self t)), tr')
    | (Raised e, tr') => (Returned (error_message url e), tr')
    end.
Proof.
  unfold _process_scraping, datetime_now, try_except, bind, ret.
  destruct (select_and_scrape _ _ _ _ _ _) as [[[[|c t] m]|e] tr']; reflexivity.
Qed.

(** The events of a call extend the trace it starts from. *)
Lemma process_trace w self url tags method tr :
  snd (_process_scraping w self url tags method tr)
  = snd (select_and_scrape w self url (default get_default_tags tags) method tr).
Proof.
  rewrite process_run.
  destruct (select_and_scrape _ _ _ _ _ _) as [[[[|c t] m]|e] tr']; reflexivity.
Qed.

Lemma Returned_inj {A} (a b : A) : Returned a = Returned b -> a = b.
Proof. by intros [= ->]. Qed.

(** ** The three texts are told apart by their wording *)

Lemma no_content_is_not_error url m url' e :
  no_content_message url m <> error_message url' e.
Proof. unfold no_content_message, error_message. simpl. discriminate. Qed.

Lemma report_is_not_error url m d c url' e :
  report url m d c <> error_message url' e.
Proof. unfold report, error_message. simpl. discriminate. Qed.

Lemma report_is_not_no_content url m d c url' m' :
  report url m d c <> no_content_message url' m'.
Proof. unfold report, no_content_message. simpl. discriminate. Qed.

(** For a given address, the method line of a report names one method. *)
Lemma report_method_inj url p q d d' c c' :
  report url (method_name p) d c = report url (method_name q) d' c' -> p = q.
Proof.
  unfold report. intros H.
  do 2 apply app_inv_head in H.
  apply (app_inv_head url) in H.
  do 2 apply app_inv_head in H.
  destruct p, q; simpl in H; first [reflexivity | discriminate].
Qed.

(** ** Slicing and truncation *)

Lemma len_app {A} (s t : list A) : len (s ++ t) = len s + len t.
Proof. unfold len. rewrite length_app. lia. Qed.

Lemma len_truncation_marker : len truncation_marker = 25.
Proof. reflexivity. Qed.

Lemma slice_to_nonneg {A} (s : list A) (n : Z) :
  0 <= n -> slice_to s n = take (Z.to_nat n) s.
Proof.
  intros Hn. unfold slice_to.
  destruct (Z.ltb_spec n 0); [lia | reflexivity].
Qed.

Lemma len_slice_to {A} (s : list A) (n : Z) :
  0 <= n -> n <= len s -> len (slice_to s n) = n.
Proof.
  intros Hn Hs. rewrite slice_to_nonneg by done.
  unfold len in *. rewrite length_take. lia.
Qed.

Lemma len_slice_to_le {A} (s : list A) (n : Z) :
  0 <= n -> len (slice_to s n) <= n.
Proof.
  intros Hn. rewrite slice_to_nonneg by done.
  unfold len. rewrite length_take. lia.
Qed.

Lemma slice_to_prefix {A} (s : list A) (n : Z) : slice_to s n `prefix_of` s.
Proof. unfold slice_to. apply prefix_take. Qed.

Lemma truncate_long self t :
  len t > max_content_length self ->
  truncate self t = slice_to t (max_content_length self) ++ truncation_marker.
Proof.
  intros Hlong. unfold truncate.
  destruct (Z.gtb_spec (len t) (max_content_length self)); [done | lia].
Qed.

Lemma truncate_short self t :
  len t <= max_content_length self -> truncate self t = t.
Proof.
  intros Hshort. unfold truncate.
  destruct (Z.gtb_spec (len t) (max_content_length self)); [lia | done].
Qed.

(** ** The parsed document *)

Lemma node_nested_ind (P : node -> Prop) :
  (forall nm cs, Forall P cs -> P (Tag nm cs)) ->
  (forall s, P (NavigableString s)) ->
  (forall s, P (Comment s)) ->
  forall n, P n.
Proof.
  intros HTag HString HComment. fix IH 1.
  intros [nm cs|s|s]; [|apply HString|apply HComment].
  apply HTag. induction cs as [|c cs' IHcs]; constructor; [apply IH | apply IHcs].
Qed.

Lemma decompose_in_free names n :
  named names n = false -> free_of names (decompose_in names n) = true.
Proof.
  induction n as [nm cs IH|s|s] using node_nested_ind; [|done..].
  simpl. intros ->. simpl.
  induction IH as [|c cs' Hc _ IHcs]; [done|].
  destruct (named names c) eqn:Hnamed; [apply IHcs|].
  simpl. rewrite (Hc eq_refl). apply IHcs.
Qed.

Lemma decompose_all_free names soup :
  forallb (free_of names) (decompose_all names soup) = true.
Proof.
  induction soup as [|c soup' IH]; [done|]. simpl.
  destruct (named names c) eqn:Hnamed; [done|].
  simpl. by rewrite decompose_in_free.
Qed.

Lemma http_calls_app tr1 tr2 :
  http_calls (tr1 ++ tr2) = http_calls tr1 ++ http_calls tr2.
Proof. apply List.filter_app. Qed.


Lemma aiohttp_bad_status w self url tags r :
  session_get w url (timeout self) [(lit "User-Agent", user_agent self)]
    = Returned r ->
  400 <= status r ->
  aiohttp_outcome w self url tags
  = Raised (ClientResponseError (status r) (reason r) (status_error r)).
Proof.
  intros Hget Hstatus.
  unfold aiohttp_outcome, _scrape_with_aiohttp, logger_info, call, bind, emit,
    lift, raise_for_status.
  simpl. rewrite Hget. simpl.
  by destruct (Z.leb_spec 400 (status r)); [|lia].
Qed.

(** ** The code extracts the visible text of the specification *)












(** ** The claims *)

(** C1. In mode [auto], when the browser path raises any exception, the
    orchestrator runs the HTTP path as a fallback: after the events of the
    browser path it logs a warning that carries the exception, then come
    the events of the HTTP path, among them the one HTTP request of the
    call. If the HTTP path then returns non-empty text, the call returns
    the report, and the method line of that report reads
    [**Method Used:** aiohttp]. *)
Theorem auto_falls_back_to_http w self url tags tr e :
  chromium_outcome w url (default get_default_tags tags) = Raised e ->
  http_calls (snd (_process_scraping w self url tags (lit "auto") tr))
  = http_calls tr
      ++ [HttpGet url (timeout self) [(lit "User-Agent", user_agent self)]]
  /\ (exists rest,
         snd (_process_scraping w self url tags (lit "auto") tr)
         = tr ++ chromium_events w url (default get_default_tags tags)
              ++ [Logged WARNING
                    ([9888%N; 65039%N] ++ lit " Chromium scraping failed ("
                       ++ str_exn e ++ lit "), falling back to aiohttp.")]
              ++ aiohttp_events w self url (default get_default_tags tags)
              ++ rest)
  /\ forall t,
      aiohttp_outcome w self url (default get_default_tags tags) = Returned t ->
      t <> [] ->
      fst (_process_scraping w self url tags (lit "auto") tr)
      = Returned
          ([nl] ++ lit "**Website Scraped:** " ++ url ++ [nl]
             ++ lit "**Method Used:** aiohttp" ++ [nl]
             ++ lit "**Duration:** "
             ++ seconds_2f w (clock w tr)
                  (clock w (snd (_process_scraping w self url tags
                                   (lit "auto") tr)))
             ++ lit " seconds" ++ [nl]
             ++ lit "**Content Length:** "
             ++ str_of_nat (length (truncate self t))
             ++ lit " characters" ++ [nl]
             ++ lit "**Content Extracted:**" ++ [nl]
             ++ truncate self t ++ [nl]).
Proof.
  intros Hc. split; [|split].
  - rewrite process_trace, (select_auto_fallback _ _ _ _ _ _ Hc).
    cbn [snd]. rewrite !http_calls_app, chromium_no_http, aiohttp_one_request.
    by destruct (aiohttp_outcome _ _ _ _).
  - rewrite process_trace, (select_auto_fallback _ _ _ _ _ _ Hc).
    cbn [snd]. eexists. reflexivity.
  - intros t Ha Ht. rewrite process_trace, process_run.
    rewrite (select_auto_fallback _ _ _ _ _ _ Hc), Ha. cbn [fst snd].
    destruct t as [|c0 t]; [done|]. reflexivity.
Qed.

Lemma auto_falls_back_to_http_witness :
  fst (_process_scraping
         (mock browser_down keep_documents
               (Returned (ok_response (lit "<div>ok</div>"))))
         default_tool example_url None (lit "auto") [])
  = Returned
      ([nl] ++ lit "**Website Scraped:** http://example.test/page" ++ [nl]
         ++ lit "**Method Used:** aiohttp" ++ [nl]
         ++ lit "**Duration:** 6.00 seconds" ++ [nl]
         ++ lit "**Content Length:** 2 characters" ++ [nl]
         ++ lit "**Content Extracted:**" ++ [nl]
         ++ lit "ok" ++ [nl]).
Proof.
  pose proof (proj2 (proj2 (auto_falls_back_to_http
                  (mock browser_down keep_documents
                        (Returned (ok_response (lit "<div>ok</div>"))))
                  default_tool example_url None []
                  (CollaboratorError (lit "Error")
                     (lit "Browser closed unexpectedly"))
                  eq_refl)) (lit "ok")) as H.
  rewrite H.
  - vm_compute. reflexivity.
  - vm_compute. reflexivity.
  - discriminate.
Defined.

(** C2. Every exception raised during a scraping path or by an
    unrecognised mode is caught and returned as a text. [_arun] always
    returns a text, and so does [_run] whenever [asyncio.run] starts the
    coroutine. (In a thread whose event loop is running [asyncio.run]
    refuses with its own [RuntimeError] before the coroutine starts: the
    trace is unchanged, no path has run and no mode was looked at.) The
    text returned for a failure reads [Web scraping error for], the
    address, a colon and the text of the exception: that of the forced
    browser path (its own two messages included), of the forced HTTP path
    (for a status from 400 on, what the HTTP library prints for the
    response), of the HTTP fallback in mode [auto], or
    [Unknown method:] and the mode. *)
Theorem failures_are_returned_as_text w self url tags method tr :
  (exists s, fst (_arun w self url tags method tr) = Returned s)
  /\ (loop_running w = false ->
      _run w self url tags method tr = _arun w self url tags method tr)
  /\ (loop_running w = true ->
      _run w self url tags method tr
      = (Raised (RuntimeError
                   (lit "asyncio.run() cannot be called from a running event loop")),
         tr))
  /\ (forall e,
        method = lit "chromium" ->
        chromium_outcome w url (default get_default_tags tags) = Raised e ->
        fst (_arun w self url tags method tr)
        = Returned ([10060%N] ++ lit " Web scraping error for " ++ url
                      ++ lit ": " ++ str_exn e))
  /\ (method = lit "chromium" ->
      chromium_load w [url] = Returned [] ->
      fst (_arun w self url tags method tr)
      = Returned ([10060%N] ++ lit " Web scraping error for " ++ url
                    ++ lit ": Chromium loader failed to get any documents."))
  /\ (forall d ds,
        method = lit "chromium" ->
        chromium_load w [url] = Returned (d :: ds) ->
        transform_documents w (d :: ds) (default get_default_tags tags)
          = Returned [] ->
        fst (_arun w self url tags method tr)
        = Returned ([10060%N] ++ lit " Web scraping error for " ++ url
                      ++ lit ": BeautifulSoupTransformer failed to extract content."))
  /\ (forall e,
        method = lit "aiohttp" ->
        aiohttp_outcome w self url (default get_default_tags tags) = Raised e ->
        fst (_arun w self url tags method tr)
        = Returned ([10060%N] ++ lit " Web scraping error for " ++ url
                      ++ lit ": " ++ str_exn e))
  /\ (forall r,
        method = lit "aiohttp" ->
        session_get w url (timeout self) [(lit "User-Agent", user_agent self)]
          = Returned r ->
        400 <= status r ->
        fst (_arun w self url tags method tr)
        = Returned ([10060%N] ++ lit " Web scraping error for " ++ url
                      ++ lit ": " ++ status_error r))
  /\ (forall e e',
        method = lit "auto" ->
        chromium_outcome w url (default get_default_tags tags) = Raised e ->
        aiohttp_outcome w self url (default get_default_tags tags) = Raised e' ->
        fst (_arun w self url tags method tr)
        = Returned ([10060%N] ++ lit " Web scraping error for " ++ url
                      ++ lit ": " ++ str_exn e'))
  /\ (method <> lit "auto" -> method <> lit "chromium" ->
      method <> lit "aiohttp" ->
      fst (_arun w self url tags method tr)
      = Returned ([10060%N] ++ lit " Web scraping error for " ++ url
                    ++ lit ": Unknown method: " ++ method)).
Proof.
  unfold _run, _arun, asyncio_run.
  split; [|split; [|split]].
  - rewrite process_run.
    destruct (select_and_scrape _ _ _ _ _ _) as [[[[|c t] m]|e] tr'];
      eexists; reflexivity.
  - by intros ->.
  - by intros ->.
  - rewrite process_run. repeat split.
    + intros e -> Hc. rewrite select_browser_only. by rewrite Hc.
    + intros -> Hload. rewrite select_browser_only.
      unfold chromium_outcome, _scrape_with_chromium, logger_info, call, bind,
        emit, lift, raise.
      simpl. by rewrite Hload.
    + intros d ds -> Hload Htransform. rewrite select_browser_only.
      unfold chromium_outcome, _scrape_with_chromium, logger_info, call, bind,
        emit, lift, raise.
      simpl. rewrite Hload. simpl. by rewrite Htransform.
    + intros e -> Ha. rewrite select_http_only. by rewrite Ha.
    + intros r -> Hget Hstatus. rewrite select_http_only.
      by rewrite (aiohttp_bad_status _ _ _ _ _ Hget Hstatus).
    + intros e e' -> Hc Ha. rewrite (select_auto_fallback _ _ _ _ _ _ Hc).
      by rewrite Ha.
    + intros H1 H2 H3. by rewrite select_unknown.
Qed.

Lemma failures_are_returned_as_text_witness :
  fst (_arun (mock browser_down keep_documents (Returned not_found))
         default_tool example_url None (lit "aiohttp") [])
  = Returned
      ([10060%N] ++ lit " Web scraping error for " ++ example_url ++ lit ": "
         ++ lit "404, message='Not Found', url='http://example.test/page'")
  /\ _run (mock browser_down keep_documents (Returned not_found))
       default_tool example_url None (lit "aiohttp") []
     = _arun (mock browser_down keep_documents (Returned not_found))
         default_tool example_url None (lit "aiohttp") [].
Proof.
  pose proof (failures_are_returned_as_text
                (mock browser_down keep_documents (Returned not_found))
                default_tool example_url None (lit "aiohttp") [])
    as (_ & Hrun & _ & _ & _ & _ & _ & Hstatus & _).
  split.
  - apply (Hstatus not_found eq_refl eq_refl). vm_compute. discriminate.
  - apply Hrun. reflexivity.
Defined.



(** C6. A report names the method of the path that produced its non-empty
    text: whenever a call returns a report naming a method, the path of
    that name is the one the mode selects, and it returned non-empty text.
    After a fallback the report names [aiohttp], not the browser path
    tried first. *)
Theorem reported_method_is_producing_path w self url tags method tr p d c :
  fst (_process_scraping w self url tags method tr)
  = Returned (report url (method_name p) d c) ->
  (exists t,
      spec_produced w self url (default get_default_tags tags) method p t
      /\ t <> [])
  /\ (forall e,
        method = lit "auto" ->
        chromium_outcome w url (default get_default_tags tags) = Raised e ->
        p = Aiohttp).
Proof.
  intros Hres.
  assert (exists t,
             spec_produced w self url (default get_default_tags tags) method p t
             /\ t <> []) as Hprod.
  { rewrite process_run in Hres.
    destruct (select_and_scrape _ _ _ _ _ _) as [[[t m]|e] tr'] eqn:Hsel.
    - destruct (select_sound w self url (default get_default_tags tags)
                  method tr t m) as (q & -> & Hq).
      { by rewrite Hsel. }
      destruct t as [|c0 t]; cbn [fst] in Hres; apply Returned_inj in Hres.
      + symmetry in Hres. by apply report_is_not_no_content in Hres.
      + apply report_method_inj in Hres as ->. by exists (c0 :: t).
    - cbn [fst] in Hres. apply Returned_inj in Hres. symmetry in Hres.
      by apply report_is_not_error in Hres. }
  split; [exact Hprod|].
  intros e -> Hc. destruct Hprod as (t & Hprod & _).
  inversion Hprod; subst; try discriminate; try reflexivity; congruence.
Qed.

Lemma reported_method_is_producing_path_witness :
  exists t,
    spec_produced
      (mock browser_down keep_documents
            (Returned (ok_response (lit "<div>ok</div>"))))
      default_tool example_url get_default_tags (lit "auto") Aiohttp t
    /\ t <> [].
Proof.
  apply (proj1 (reported_method_is_producing_path
                  (mock browser_down keep_documents
                        (Returned (ok_response (lit "<div>ok</div>"))))
                  default_tool example_url None (lit "auto") [] Aiohttp
                  (lit "6.00") (lit "ok") ltac:(vm_compute; reflexivity))).
Defined.

(** C7. When the path the mode selects returns empty text, the call
    returns (it does not raise) the text that reads
    [No content extracted from], the address, [using method] and the
    name of that path's method, [chromium] or [aiohttp]. Its wording is
    not that of a failure: no text that reads [Web scraping error for]
    after the cross mark is equal to it. *)
Theorem empty_text_is_no_content w self url tags method tr p :
  spec_produced w self url (default get_default_tags tags) method p [] ->
  fst (_process_scraping w self url tags method tr)
  = Returned
      ([10060%N] ++ lit " No content extracted from " ++ url
         ++ lit " using method "
         ++ match p with
            | Chromium => lit "chromium"
            | Aiohttp => lit "aiohttp"
            end
         ++ lit ".")
  /\ forall s url' rest,
      fst (_process_scraping w self url tags method tr) = Returned s ->
      s <> [10060%N] ++ lit " Web scraping error for " ++ url' ++ rest.
Proof.
  intros Hprod.
  assert (fst (_process_scraping w self url tags method tr)
          = Returned (no_content_message url (method_name p))) as Hres.
  { rewrite process_run.
    pose proof (select_complete w self url _ method tr p [] Hprod) as Hsel.
    destruct (select_and_scrape _ _ _ _ _ _) as [o tr']. simpl in Hsel.
    by subst o. }
  rewrite Hres. split; [by destruct p|].
  intros s url' rest Hs. apply Returned_inj in Hs as <-.
  unfold no_content_message. simpl. discriminate.
Qed.

Lemma empty_text_is_no_content_witness :
  fst (_process_scraping
         (mock browser_down keep_documents
               (Returned (ok_response (lit "<script>x</script>"))))
         default_tool example_url None (lit "aiohttp") [])
  = Returned
      ([10060%N]
         ++ lit " No content extracted from http://example.test/page using method aiohttp.").
Proof.
  pose proof (proj1 (empty_text_is_no_content
                  (mock browser_down keep_documents
                        (Returned (ok_response (lit "<script>x</script>"))))
                  default_tool example_url None (lit "aiohttp") [] Aiohttp
                  ltac:(apply produced_http_only; vm_compute; reflexivity)))
    as H.
  rewrite H. vm_compute. reflexivity.
Defined.

(** C4, as amended. Under a non-negative configured maximum, when the
    selected path returns text longer than the maximum, the call returns a
    report whose content is the first [max] characters of the text followed
    by the truncation marker; its length is the maximum plus the length of
    the marker. *)
Theorem truncated_content_length w self url tags method tr p t :
  0 <= max_content_length self ->
  spec_produced w self url (default get_default_tags tags) method p t ->
  len t > max_content_length self ->
  fst (_process_scraping w self url tags method tr)
  = Returned
      (report url (method_name p)
         (seconds_2f w (clock w tr)
            (clock w (snd (_process_scraping w self url tags method tr))))
         (truncate self t))
  /\ truncate self t
     = take (Z.to_nat (max_content_length self)) t ++ truncation_marker
  /\ len (truncate self t) = max_content_length self + len truncation_marker.
Proof.
  intros Hmax Hprod Hlong.
  rewrite process_trace, process_run.
  pose proof (select_complete w self url _ method tr p t Hprod) as Hsel.
  destruct (select_and_scrape _ _ _ _ _ _) as [o tr']. simpl in Hsel. subst o.
  rewrite (truncate_long _ _ Hlong). repeat split.
  - destruct t as [|c0 t]; [|reflexivity]. unfold len in Hlong. simpl in Hlong. lia.
  - by rewrite slice_to_nonneg.
  - rewrite len_app, len_slice_to; [reflexivity | done | lia].
Qed.

Lemma truncated_content_length_witness :
  truncate (init 2 20) (lit "Hello")
  = take 2 (lit "Hello") ++ truncation_marker
  /\ len (truncate (init 2 20) (lit "Hello")) = 2 + len truncation_marker.
Proof.
  apply (proj2 (truncated_content_length
                  (mock browser_down keep_documents
                        (Returned (ok_response hello_page)))
                  (init 2 20) example_url None (lit "aiohttp") [] Aiohttp
                  (lit "Hello")
                  ltac:(simpl; lia)
                  ltac:(apply produced_http_only; vm_compute; reflexivity)
                  ltac:(vm_compute; reflexivity))).
Defined.

(** C4 as stated fails for a negative maximum: with [max = -1] the text
    [abc] is longer than the maximum, the slice drops its last character,
    and the content has 27 characters, not [-1 + 25]. *)
Lemma truncated_length_negative_maximum :
  spec_produced
    (mock browser_down keep_documents (Returned (ok_response (lit "<p>abc</p>"))))
    (init (-1) 20) example_url get_default_tags (lit "aiohttp") Aiohttp (lit "abc")
  /\ len (lit "abc") > max_content_length (init (-1) 20)
  /\ fst (_process_scraping
            (mock browser_down keep_documents
                  (Returned (ok_response (lit "<p>abc</p>"))))
            (init (-1) 20) example_url None (lit "aiohttp") [])
     = Returned (report example_url (lit "aiohttp") (lit "2.00")
                   (lit "ab" ++ truncation_marker))
  /\ len (lit "ab" ++ truncation_marker)
     <> max_content_length (init (-1) 20) + len truncation_marker.
Proof.
  split; [apply produced_http_only; vm_compute; reflexivity|].
  split; [vm_compute; reflexivity|].
  split; [vm_compute; reflexivity|].
  vm_compute. discriminate.
Qed.

(** C5, as amended. Under a non-negative configured maximum, the content
    of every report is a prefix of the extracted text, of length at most
    the maximum, followed by the truncation marker exactly when the text
    was longer than the maximum; the content is therefore at most the
    maximum plus the length of the marker long. *)
Theorem reported_content_bound w self url tags method tr p t :
  0 <= max_content_length self ->
  spec_produced w self url (default get_default_tags tags) method p t ->
  t <> [] ->
  fst (_process_scraping w self url tags method tr)
  = Returned
      (report url (method_name p)
         (seconds_2f w (clock w tr)
            (clock w (snd (_process_scraping w self url tags method tr))))
         (truncate self t))
  /\ (exists kept,
         kept `prefix_of` t
         /\ len kept <= max_content_length self
         /\ truncate self t
            = kept ++ (if len t >? max_content_length self
                       then truncation_marker else []))
  /\ len (truncate self t) <= max_content_length self + len truncation_marker.
Proof.
  intros Hmax Hprod Ht.
  rewrite process_trace, process_run.
  pose proof (select_complete w self url _ method tr p t Hprod) as Hsel.
  destruct (select_and_scrape _ _ _ _ _ _) as [o tr']. simpl in Hsel. subst o.
  split; [by destruct t|].
  unfold truncate.
  destruct (Z.gtb_spec (len t) (max_content_length self)) as [Hlong|Hshort].
  - split.
    + exists (slice_to t (max_content_length self)).
      split; [apply slice_to_prefix|]. split; [by apply len_slice_to_le | done].
    + rewrite len_app. pose proof (len_slice_to_le t _ Hmax). lia.
  - split.
    + exists t. split; [done|]. split; [done | by rewrite app_nil_r].
    + rewrite len_truncation_marker. lia.
Qed.

Lemma reported_content_bound_witness :
  len (truncate (init 2 20) (lit "Hello")) <= 2 + len truncation_marker.
Proof.
  apply (proj2 (proj2 (reported_content_bound
                  (mock browser_down keep_documents
                        (Returned (ok_response hello_page)))
                  (init 2 20) example_url None (lit "aiohttp") [] Aiohttp
                  (lit "Hello")
                  ltac:(simpl; lia)
                  ltac:(apply produced_http_only; vm_compute; reflexivity)
                  ltac:(discriminate)))).
Defined.

(** C5 as stated fails. With a maximum of 5 the page text [Hello world]
    yields a report whose content has 30 characters; with the default
    maximum of 20000 a text of 20001 characters yields 20025. With a
    negative maximum even the part kept from the page is longer than the
    maximum. *)
Lemma content_exceeds_maximum :
  (fst (_process_scraping
          (mock browser_down keep_documents
                (Returned (ok_response (lit "<p>Hello world</p>"))))
          (init 5 20) example_url None (lit "aiohttp") [])
   = Returned (report example_url (lit "aiohttp") (lit "2.00")
                 (lit "Hello" ++ truncation_marker))
   /\ ~ len (lit "Hello" ++ truncation_marker) <= max_content_length (init 5 20))
  /\ ~ len (truncate default_tool (replicate (Z.to_nat 20001) 97%N))
       <= max_content_length default_tool
  /\ (fst (_process_scraping
             (mock browser_down keep_documents
                   (Returned (ok_response (lit "<p>abc</p>"))))
             (init (-1) 20) example_url None (lit "aiohttp") [])
      = Returned (report example_url (lit "aiohttp") (lit "2.00")
                    (lit "ab" ++ truncation_marker))
      /\ ~ len (lit "ab") <= max_content_length (init (-1) 20)).
Proof.
  split; [split; [vm_compute; reflexivity | vm_compute; intros H; apply H; reflexivity]|].
  split; [|split; [vm_compute; reflexivity | vm_compute; intros H; apply H; reflexivity]].
  change (max_content_length default_tool) with 20000.
  rewrite truncate_long; change (max_content_length default_tool) with 20000.
  - rewrite len_app, len_slice_to, len_truncation_marker;
      unfold len; rewrite ?length_replicate; lia.
  - unfold len. rewrite length_replicate. lia.
Qed.





(** C10. The HTTP path does not read [tags_to_extract]: for every world,
    tool, address and trace it does the same for any two tag lists, and so
    does a whole call in mode [aiohttp]. The browser path does read it: it
    hands the list to the transformer, and there is a world in which two
    tag lists give different texts. *)
Theorem http_path_ignores_tags :
  (forall w self url tags1 tags2 tr,
      _scrape_with_aiohttp w self url tags1 tr
      = _scrape_with_aiohttp w self url tags2 tr)
  /\ (forall w self url otags1 otags2 tr,
        _process_scraping w self url otags1 (lit "aiohttp") tr
        = _process_scraping w self url otags2 (lit "aiohttp") tr)
  /\ (forall w url tags d ds,
        chromium_load w [url] = Returned (d :: ds) ->
        chromium_outcome w url tags
        = match transform_documents w (d :: ds) tags with
          | Returned [] =>
              Raised (Exception
                        (lit "BeautifulSoupTransformer failed to extract content."))
          | Returned (d' :: _) => Returned (page_content d')
          | Raised e => Raised e
          end)
  /\ chromium_outcome
       (mock (rendered (lit "<p>Hello</p><div>menu</div>")) keep_listed
             (Returned (ok_response hello_page)))
       example_url [lit "p"]
     <> chromium_outcome
          (mock (rendered (lit "<p>Hello</p><div>menu</div>")) keep_listed
                (Returned (ok_response hello_page)))
          example_url [lit "div"].
Proof.
  split; [reflexivity|]. split; [|split].
  - intros. rewrite !process_run, !select_http_only. reflexivity.
  - intros w url tags d ds Hload.
    unfold chromium_outcome, _scrape_with_chromium, logger_info, call, bind,
      emit, lift.
    simpl. rewrite Hload. simpl.
    by destruct (transform_documents w (d :: ds) tags) as [[|d' ds']|e].
  - vm_compute. discriminate.
Qed.

Lemma http_path_ignores_tags_witness :
  chromium_outcome
    (mock (rendered (lit "<p>Hello</p><div>menu</div>")) keep_listed
          (Returned (ok_response hello_page)))
    example_url [lit "p"]
  = Returned (lit "Hello").
Proof.
  rewrite (proj1 (proj2 (proj2 http_path_ignores_tags))
             (mock (rendered (lit "<p>Hello</p><div>menu</div>")) keep_listed
                   (Returned (ok_response hello_page)))
             example_url [lit "p"]
             {| page_content := lit "<p>Hello</p><div>menu</div>";
                source := example_url |} [] eq_refl).
  vm_compute. reflexivity.
Defined.

(** * Further properties of the tool *)

(** ** The mode [auto] when the browser path returns *)

(** X1. In mode [auto], when the browser path returns a text, empty or
    not, there is no fallback: the call adds the events of the browser
    path and the success record, sends no HTTP request, and returns the
    report (or, for the empty text, the no-content text) naming
    [chromium]. *)
Theorem auto_browser_text_skips_http w self url tags tr t :
  chromium_outcome w url (default get_default_tags tags) = Returned t ->
  snd (_process_scraping w self url tags (lit "auto") tr)
  = tr ++ chromium_events w url (default get_default_tags tags)
       ++ [Logged INFO ([9989%N] ++ lit " Chromium scraping successful.")]
  /\ http_calls (snd (_process_scraping w self url tags (lit "auto") tr))
     = http_calls tr
  /\ fst (_process_scraping w self url tags (lit "auto") tr)
     = Returned
         (match t with
          | [] => no_content_message url (lit "chromium")
          | _ :: _ =>
              report url (lit "chromium")
                (seconds_2f w (clock w tr)
                   (clock w (snd (_process_scraping w self url tags
                                    (lit "auto") tr))))
                (truncate self t)
          end).
Proof.
  intros Hc. rewrite process_trace, process_run.
  rewrite (select_auto_browser _ _ _ _ _ _ Hc). cbn [snd].
  split; [reflexivity|]. split.
  - rewrite !http_calls_app, chromium_no_http. simpl. by rewrite app_nil_r.
  - by destruct t.
Qed.

Lemma auto_browser_text_skips_http_witness :
  http_calls
    (snd (_process_scraping
            (mock (rendered (lit "<p></p>")) keep_listed
                  (Returned (ok_response hello_page)))
            default_tool example_url None (lit "auto") []))
  = http_calls []
  /\ fst (_process_scraping
            (mock (rendered (lit "<p></p>")) keep_listed
                  (Returned (ok_response hello_page)))
            default_tool example_url None (lit "auto") [])
     = Returned (no_content_message example_url (lit "chromium")).
Proof.
  apply (proj2 (auto_browser_text_skips_http
                  (mock (rendered (lit "<p></p>")) keep_listed
                        (Returned (ok_response hello_page)))
                  default_tool example_url None [] []
                  ltac:(vm_compute; reflexivity))).
Defined.

(** ** Truncation at the bounds *)

(** X2. A non-empty text no longer than the configured maximum, the text
    of exactly the maximum length included, is reported whole: the content
    of the report is the text itself, without a marker. *)
Theorem short_text_is_reported_whole w self url tags method tr p t :
  spec_produced w self url (default get_default_tags tags) method p t ->
  t <> [] ->
  len t <= max_content_length self ->
  fst (_process_scraping w self url tags method tr)
  = Returned
      (report url (method_name p)
         (seconds_2f w (clock w tr)
            (clock w (snd (_process_scraping w self url tags method tr))))
         t).
Proof.
  intros Hprod Ht Hshort. rewrite process_trace, process_run.
  pose proof (select_complete w self url _ method tr p t Hprod) as Hsel.
  destruct (select_and_scrape _ _ _ _ _ _) as [o tr']. simpl in Hsel. subst o.
  rewrite (truncate_short _ _ Hshort). by destruct t.
Qed.

Lemma short_text_is_reported_whole_witness :
  fst (_process_scraping
         (mock browser_down keep_documents (Returned (ok_response hello_page)))
         (init 5 20) example_url None (lit "aiohttp") [])
  = Returned (report example_url (lit "aiohttp") (lit "2.00") (lit "Hello")).
Proof.
  apply (short_text_is_reported_whole
           (mock browser_down keep_documents (Returned (ok_response hello_page)))
           (init 5 20) example_url None (lit "aiohttp") [] Aiohttp (lit "Hello")
           ltac:(apply produced_http_only; vm_compute; reflexivity)
           ltac:(discriminate)
           ltac:(vm_compute; discriminate)).
Defined.

(** X3. Under a negative configured maximum every non-empty text counts as
    too long: the content of the report is the text without its last
    [-max] characters (nothing of it when it has no more than that),
    followed by the truncation marker. *)
Theorem negative_maximum_cuts_from_the_end w self url tags method tr p t :
  max_content_length self < 0 ->
  spec_produced w self url (default get_default_tags tags) method p t ->
  t <> [] ->
  fst (_process_scraping w self url tags method tr)
  = Returned
      (report url (method_name p)
         (seconds_2f w (clock w tr)
            (clock w (snd (_process_scraping w self url tags method tr))))
         (take (length t - Z.to_nat (- max_content_length self)) t
            ++ truncation_marker))
  /\ len (take (length t - Z.to_nat (- max_content_length self)) t
            ++ truncation_marker)
     = Z.max 0 (len t + max_content_length self) + len truncation_marker.
Proof.
  intros Hneg Hprod Ht. rewrite process_trace, process_run.
  pose proof (select_complete w self url _ method tr p t Hprod) as Hsel.
  destruct (select_and_scrape _ _ _ _ _ _) as [o tr']. simpl in Hsel. subst o.
  assert (truncate self t
          = take (length t - Z.to_nat (- max_content_length self)) t
              ++ truncation_marker) as ->.
  { rewrite truncate_long by (unfold len; lia).
    unfold slice_to. destruct (Z.ltb_spec (max_content_length self) 0); [|lia].
    do 2 f_equal. unfold len. lia. }
  split; [by destruct t|].
  rewrite len_app. unfold len at 1. rewrite length_take. unfold len. lia.
Qed.

Lemma negative_maximum_cuts_from_the_end_witness :
  fst (_process_scraping
         (mock browser_down keep_documents (Returned (ok_response hello_page)))
         (init (-2) 20) example_url None (lit "aiohttp") [])
  = Returned (report example_url (lit "aiohttp") (lit "2.00")
                (lit "Hel" ++ truncation_marker)).
Proof.
  apply (proj1 (negative_maximum_cuts_from_the_end
                  (mock browser_down keep_documents
                        (Returned (ok_response hello_page)))
                  (init (-2) 20) example_url None (lit "aiohttp") [] Aiohttp
                  (lit "Hello")
                  ltac:(simpl; lia)
                  ltac:(apply produced_http_only; vm_compute; reflexivity)
                  ltac:(discriminate))).
Defined.

(** ** What a call asks of its collaborators *)

Lemma browser_loads_app tr1 tr2 :
  browser_loads (tr1 ++ tr2) = browser_loads tr1 ++ browser_loads tr2.
Proof. apply List.filter_app. Qed.

Lemma transform_calls_app tr1 tr2 :
  transform_calls (tr1 ++ tr2) = transform_calls tr1 ++ transform_calls tr2.
Proof. apply List.filter_app. Qed.

Lemma chromium_one_load w url tags :
  browser_loads (chromium_events w url tags) = [ChromiumLoad [url]].
Proof.
  unfold chromium_events, _scrape_with_chromium, logger_info, call, bind, emit,
    lift, raise, ret.
  simpl. destruct (chromium_load w [url]) as [[|d ds]|e]; simpl; try done.
  destruct (transform_documents w (d :: ds) tags) as [[|d' ds']|e]; done.
Qed.

Lemma aiohttp_no_load w self url tags :
  browser_loads (aiohttp_events w self url tags) = [].
Proof.
  unfold aiohttp_events, _scrape_with_aiohttp, logger_info, call, bind, emit,
    lift, raise_for_status, raise, ret.
  simpl. destruct (session_get w url _ _) as [r|e]; simpl; try done.
  destruct (400 <=? status r); simpl; try done.
  destruct (text r); done.
Qed.

(** X4. The browser path calls the transformer only when the loader
    returned at least one document, and then once, with those documents
    and the caller's tags. When the loader returns no document the path
    raises its own exception, and when the loader raises, that exception;
    a call in mode [chromium] then returns the error text for it. *)
Theorem transformer_needs_documents w self url tags tr :
  transform_calls (chromium_events w url (default get_default_tags tags))
  = match chromium_load w [url] with
    | Returned (d :: ds) =>
        [TransformDocuments (d :: ds) (default get_default_tags tags)]
    | _ => []
    end
  /\ (chromium_load w [url] = Returned [] ->
      fst (_process_scraping w self url tags (lit "chromium") tr)
      = Returned
          (error_message url
             (Exception (lit "Chromium loader failed to get any documents."))))
  /\ (forall e,
        chromium_load w [url] = Raised e ->
        fst (_process_scraping w self url tags (lit "chromium") tr)
        = Returned (error_message url e)).
Proof.
  split; [|split].
  - unfold chromium_events, _scrape_with_chromium, logger_info, call, bind,
      emit, lift, raise, ret.
    simpl. destruct (chromium_load w [url]) as [[|d ds]|e]; simpl; try done.
    by destruct (transform_documents w (d :: ds) _) as [[|d' ds']|e].
  - intros Hload. rewrite process_run, select_browser_only.
    unfold chromium_outcome, _scrape_with_chromium, logger_info, call, bind,
      emit, lift, raise.
    simpl. by rewrite Hload.
  - intros e Hload. rewrite process_run, select_browser_only.
    unfold chromium_outcome, _scrape_with_chromium, logger_info, call, bind,
      emit, lift, raise.
    simpl. by rewrite Hload.
Qed.

Lemma transformer_needs_documents_witness :
  fst (_process_scraping
         (mock (Returned []) keep_listed (Returned (ok_response hello_page)))
         default_tool example_url None (lit "chromium") [])
  = Returned
      (error_message example_url
         (Exception (lit "Chromium loader failed to get any documents."))).
Proof.
  apply (proj1 (proj2 (transformer_needs_documents
                  (mock (Returned []) keep_listed
                        (Returned (ok_response hello_page)))
                  default_tool example_url None [])) eq_refl).
Defined.

(** X5. A mode other than [auto], [chromium] and [aiohttp] (the comparison
    is exact, so [Auto] or [http] are such modes) reaches no collaborator:
    the trace is left as it was, nothing is logged, loaded or requested. *)
Theorem unknown_mode_touches_nothing w self url tags method tr :
  method <> lit "auto" -> method <> lit "chromium" -> method <> lit "aiohttp" ->
  snd (_process_scraping w self url tags method tr) = tr.
Proof.
  intros H1 H2 H3. rewrite process_trace. by rewrite select_unknown.
Qed.

Lemma unknown_mode_touches_nothing_witness :
  snd (_process_scraping
         (mock browser_down keep_documents (Returned (ok_response hello_page)))
         default_tool example_url None (lit "http")
         [Logged INFO (lit "earlier")])
  = [Logged INFO (lit "earlier")].
Proof.
  apply (unknown_mode_touches_nothing
           (mock browser_down keep_documents (Returned (ok_response hello_page)))
           default_tool example_url None (lit "http")
           [Logged INFO (lit "earlier")]);
    discriminate.
Defined.

(** X6. Whatever the mode and the outcome, a call keeps the events it
    started from and adds to them at most one browser load, of the one
    address, and at most one HTTP request, to that address with the tool's
    timeout and its [User-Agent] header: no path is retried. *)
Theorem one_attempt_per_path w self url tags method tr :
  exists added,
    snd (_process_scraping w self url tags method tr) = tr ++ added
    /\ (browser_loads added = [] \/ browser_loads added = [ChromiumLoad [url]])
    /\ (http_calls added = []
        \/ http_calls added
           = [HttpGet url (timeout self) [(lit "User-Agent", user_agent self)]]).
Proof.
  rewrite process_trace.
  destruct (decide (method = lit "auto")) as [->|Hauto].
  { destruct (chromium_outcome w url (default get_default_tags tags))
      as [t|e] eqn:Hc.
    - rewrite (select_auto_browser _ _ _ _ _ _ Hc). cbn [snd].
      eexists. split; [reflexivity|].
      rewrite browser_loads_app, http_calls_app, chromium_one_load,
        chromium_no_http.
      split; [right|left]; reflexivity.
    - rewrite (select_auto_fallback _ _ _ _ _ _ Hc). cbn [snd].
      eexists. split; [reflexivity|].
      rewrite !browser_loads_app, !http_calls_app, chromium_one_load,
        chromium_no_http, aiohttp_no_load, aiohttp_one_request.
      split; right; by destruct (aiohttp_outcome _ _ _ _). }
  destruct (decide (method = lit "chromium")) as [->|Hchromium].
  { rewrite select_browser_only. cbn [snd]. eexists. split; [reflexivity|].
    rewrite chromium_one_load, chromium_no_http. split; [right|left]; done. }
  destruct (decide (method = lit "aiohttp")) as [->|Haiohttp].
  { rewrite select_http_only. cbn [snd]. eexists. split; [reflexivity|].
    rewrite aiohttp_no_load, aiohttp_one_request. split; [left|right]; done. }
  rewrite select_unknown by done. exists []. rewrite app_nil_r.
  split; [reflexivity|]. split; left; reflexivity.
Qed.

(** X7. The mode [auto] answers as the forced mode of the path it ends
    with: when the browser path returns, as the mode [chromium]; when it
    raises, as the mode [aiohttp]. The two answers are the same text, or
    reports that differ in the duration only. *)
Theorem auto_agrees_with_forced_mode w self url tags tr tr' :
  same_up_to_duration
    (fst (_process_scraping w self url tags (lit "auto") tr))
    (fst (_process_scraping w self url tags
            (match chromium_outcome w url (default get_default_tags tags) with
             | Returned _ => lit "chromium"
             | Raised _ => lit "aiohttp"
             end) tr')).
Proof.
  rewrite !process_run.
  destruct (chromium_outcome w url (default get_default_tags tags))
    as [t|e] eqn:Hc.
  - rewrite (select_auto_browser _ _ _ _ _ _ Hc), select_browser_only, Hc.
    destruct t as [|c0 t]; [by left|].
    right. eexists _, _, _, _, _. split; reflexivity.
  - rewrite (select_auto_fallback _ _ _ _ _ _ Hc), select_http_only.
    destruct (aiohttp_outcome _ _ _ _) as [[|c0 t]|e']; [by left| |by left].
    right. eexists _, _, _, _, _. split; reflexivity.
Qed.

(** ** Removal of elements from the parsed page *)

Lemma free_of_not_named names n : free_of names n = true -> named names n = false.
Proof.
  destruct n as [nm cs|s|s]; simpl; [|done..].
  intros H. apply andb_prop in H as [H _]. by apply negb_true_iff in H.
Qed.

Lemma decompose_in_free_id names n :
  free_of names n = true -> decompose_in names n = n.
Proof.
  induction n as [nm cs IH|s|s] using node_nested_ind; [|done..].
  simpl. intros H. apply andb_prop in H as [_ Hcs]. f_equal.
  induction IH as [|c cs' Hc _ IHcs]; [done|].
  simpl in Hcs. apply andb_prop in Hcs as [Hfree Hcs].
  rewrite (free_of_not_named _ _ Hfree), (Hc Hfree). f_equal. by apply IHcs.
Qed.

Lemma decompose_all_free_id names soup :
  forallb (free_of names) soup = true -> decompose_all names soup = soup.
Proof.
  induction soup as [|c soup' IH]; [done|]. simpl. intros H.
  apply andb_prop in H as [Hfree Hsoup].
  by rewrite (free_of_not_named _ _ Hfree), (decompose_in_free_id _ _ Hfree), IH.
Qed.

(** X8. Removal leaves a page that has none of the listed elements as it
    is, and removing twice is removing once. *)
Theorem removal_is_idempotent names soup :
  (forallb (free_of names) soup = true -> decompose_all names soup = soup)
  /\ decompose_all names (decompose_all names soup) = decompose_all names soup.
Proof.
  split; [apply decompose_all_free_id|].
  apply decompose_all_free_id, decompose_all_free.
Qed.

Lemma removal_is_idempotent_witness :
  decompose_all removed_tags
    [Tag (lit "p") [NavigableString (lit "Hello")]]
  = [Tag (lit "p") [NavigableString (lit "Hello")]].
Proof.
  apply (proj1 (removal_is_idempotent removed_tags
                  [Tag (lit "p") [NavigableString (lit "Hello")]])).
  vm_compute. reflexivity.
Defined.






(** ** Stripping and joining *)

Lemma lstrip_head s c r : lstrip s = c :: r -> isspace c = false.
Proof.
  induction s as [|c' s IH]; [done|]. simpl.
  destruct (isspace c') eqn:Hc'; [exact IH|]. by intros [= <- _].
Qed.


Lemma lstrip_suffix s : exists k, s = k ++ lstrip s.
Proof.
  induction s as [|c s [k IH]]; [by exists []|]. simpl.
  destruct (isspace c); [|by exists []].
  exists (c :: k). simpl. by f_equal.
Qed.

Lemma head_rev (s : str) : head (rev s) = list.last s.
Proof. rewrite rev_alt. apply head_reverse. Qed.

Lemma last_rev (s : str) : list.last (rev s) = head s.
Proof. rewrite rev_alt. apply last_reverse. Qed.


(** A stripped string begins and ends with a character that is not white
    space. *)
Lemma strip_head s c : head (strip s) = Some c -> isspace c = false.
Proof.
  unfold strip. rewrite head_rev. intros Hlast.
  destruct (lstrip_suffix (rev (lstrip s))) as [k Hk].
  assert (list.last (rev (lstrip s)) = Some c) as Hc.
  { rewrite Hk, last_app, Hlast. done. }
  rewrite last_rev in Hc. destruct (lstrip s) as [|c' r] eqn:Hs; [done|].
  simpl in Hc. injection Hc as ->. by eapply lstrip_head.
Qed.

Lemma strip_last s c : list.last (strip s) = Some c -> isspace c = false.
Proof.
  unfold strip. rewrite last_rev.
  destruct (lstrip (rev (lstrip s))) as [|c' r] eqn:Hs; [done|].
  simpl. intros [= <-]. by eapply lstrip_head.
Qed.


Lemma join_head sep p ps c :
  head p = Some c -> head (join sep (p :: ps)) = Some c.
Proof. destruct p as [|c' p]; [done|]. by destruct ps. Qed.

Lemma join_last sep ps c :
  Forall (fun p => p <> []) ps ->
  list.last (join sep ps) = Some c ->
  exists p, list.last ps = Some p /\ list.last p = Some c.
Proof.
  induction 1 as [|p ps Hp Hps IH]; [done|].
  destruct ps as [|q ps]; [intros; by exists p|].
  change (join sep (p :: q :: ps)) with (p ++ sep ++ join sep (q :: ps)).
  rewrite !last_app. intros Hlast.
  destruct (list.last (join sep (q :: ps))) as [c'|] eqn:Hj.
  - injection Hlast as ->. destruct (IH eq_refl) as (p' & Hp' & Hc).
    exists p'. by rewrite last_cons_cons.
  - apply last_None in Hj. inversion Hps as [|? ? Hq _]; subst.
    destruct q as [|cq q]; [done|]. by destruct ps.
Qed.


Lemma get_text_trimmed sep soup :
  (forall c, head (get_text sep soup) = Some c -> isspace c = false)
  /\ (forall c, list.last (get_text sep soup) = Some c -> isspace c = false).
Proof.
  unfold get_text.
  assert (Forall (fun p => p <> [])
            (filter (fun s : str => s <> []) (strip <$> all_strings soup))) as Hne.
  { apply list.Forall_forall. intros p Hin.
    by apply list_elem_of_filter in Hin as [? _]. }
  assert (forall p, p ∈ filter (fun s : str => s <> []) (strip <$> all_strings soup)
                    -> exists s, p = strip s) as Hstrip.
  { intros p Hin. apply list_elem_of_filter in Hin as [_ Hin].
    apply list_elem_of_fmap in Hin as (s & -> & _). by exists s. }
  destruct (filter _ (strip <$> all_strings soup)) as [|p ps]; [done|].
  split; intros c Hc.
  - destruct (Hstrip p) as [s ->]; [left|].
    destruct (head (strip s)) as [c'|] eqn:Hh.
    + rewrite (join_head _ _ _ _ Hh) in Hc. injection Hc as ->.
      by eapply strip_head.
    + inversion Hne as [|? ? Hp _]; subst. by destruct (strip s).
  - destruct (join_last _ _ _ Hne Hc) as (q & Hq & Hlast).
    destruct (Hstrip q) as [s ->]; [by eapply last_Some_elem_of|].
    by eapply strip_last.
Qed.

(** ** The text of the HTTP path *)

Lemma aiohttp_returns_get_text w self url tags t :
  aiohttp_outcome w self url tags = Returned t ->
  exists soup, t = get_text [nl] soup.
Proof.
  unfold aiohttp_outcome, _scrape_with_aiohttp, logger_info, call, bind, emit,
    lift, raise_for_status, raise, ret.
  simpl. destruct (session_get w url _ _) as [r|e]; simpl; [|done].
  destruct (400 <=? status r); simpl; [done|].
  destruct (text r) as [body|e]; simpl; [|done].
  intros [= <-]. by eexists.
Qed.



(** X11. Whatever the page, the text the HTTP path returns neither begins
    nor ends with a white space character. *)
Theorem http_text_is_trimmed w self url tags tr t :
  fst (_scrape_with_aiohttp w self url tags tr) = Returned t ->
  (forall c, head t = Some c -> isspace c = false)
  /\ (forall c, list.last t = Some c -> isspace c = false).
Proof.
  rewrite aiohttp_run. cbn [fst]. intros Ht.
  apply aiohttp_returns_get_text in Ht as [soup ->].
  apply get_text_trimmed.
Qed.

Lemma http_text_is_trimmed_witness :
  (forall c, head (lit "Hello" ++ [nl] ++ lit "World") = Some c ->
             isspace c = false)
  /\ (forall c, list.last (lit "Hello" ++ [nl] ++ lit "World") = Some c ->
                isspace c = false).
Proof.
  apply (http_text_is_trimmed
           (mock browser_down keep_documents
                 (Returned (ok_response (lit "<p> Hello </p> <p>World  </p>"))))
           default_tool example_url get_default_tags []).
  vm_compute. reflexivity.
Defined.

(** ** Telling the answers apart *)

(** X12. The first character of the returned text tells whether the call
    produced content: it is a newline when the selected path returned
    non-empty text (the answer is then a report), and the cross mark
    otherwise (no content, a failed path or an unknown mode). *)
Theorem first_character_tells_success w self url tags method tr :
  exists s,
    fst (_process_scraping w self url tags method tr) = Returned s
    /\ ((exists p t,
            spec_produced w self url (default get_default_tags tags) method p t
            /\ t <> []) ->
        head s = Some nl)
    /\ (~ (exists p t,
              spec_produced w self url (default get_default_tags tags) method p t
              /\ t <> []) ->
        head s = Some 10060%N).
Proof.
  rewrite process_run.
  destruct (select_and_scrape _ _ _ _ _ _) as [[[t m]|e] tr'] eqn:Hsel.
  - destruct (select_sound w self url (default get_default_tags tags)
                method tr t m) as (p & -> & Hp); [by rewrite Hsel|].
    destruct t as [|c0 t]; eexists; (split; [reflexivity|]); split.
    + intros (p' & t' & Hp' & Ht').
      pose proof (select_complete _ _ _ _ _ tr _ _ Hp') as Hsel'.
      rewrite Hsel in Hsel'. simpl in Hsel'. congruence.
    + done.
    + done.
    + intros Hnone. exfalso. apply Hnone. by exists p, (c0 :: t).
  - eexists. split; [reflexivity|]. split; [|done].
    intros (p' & t' & Hp' & Ht').
    pose proof (select_complete _ _ _ _ _ tr _ _ Hp') as Hsel'.
    by rewrite Hsel in Hsel'.
Qed.

Lemma first_character_tells_success_witness :
  exists s,
    fst (_process_scraping
           (mock browser_down keep_documents (Returned (ok_response hello_page)))
           default_tool example_url None (lit "aiohttp") [])
    = Returned s
    /\ head s = Some nl.
Proof.
  destruct (first_character_tells_success
              (mock browser_down keep_documents
                    (Returned (ok_response hello_page)))
              default_tool example_url None (lit "aiohttp") [])
    as (s & Hs & Hyes & _).
  exists s. split; [exact Hs|]. apply Hyes.
  exists Aiohttp, (lit "Hello"). split; [|discriminate].
  apply produced_http_only; vm_compute; reflexivity.
Defined.
